(** * examples/tokens.py: a shallow embedding and its properties

    The repository is one Python file, [examples/tokens.py], written to
    exercise a syntax highlighter.  The file is nevertheless a program:
    its top level is executed when the module is imported or run, and the
    functions and classes it defines have a behaviour of their own.

    This development embeds the parts of the file that the properties
    below talk about:
    - the values and the arithmetic of the "Operators" section,
    - the module top level, statement by statement, as a computation in a
      state-and-exception monad over a world made of the module namespace,
      the file system and the trace of observable events,
    - [BaseClass], [DerivedClass], the decorators, [exception_examples],
      the async functions and [file_operations]. *)

From Stdlib Require Import ZArith QArith Qround String Ascii List.
From Stdlib Require Import DecimalString HexadecimalString DecimalPos DecimalZ.
From stdpp Require Import base gmap strings list.

Open Scope Z_scope.

(** ** Text helpers *)

(** Characters that cannot be written inside a string literal. *)
Definition nl : string := String (ascii_of_nat 10) EmptyString.
Definition dq : string := String (ascii_of_nat 34) EmptyString.

(** [str(n)] for an [int]. *)
Definition str_int (z : Z) : string :=
  DecimalString.NilZero.string_of_int (Z.to_int z).

(** [format(n, "x")] for a non-negative [int]. *)
Definition hex_int (z : Z) : string :=
  HexadecimalString.NilZero.string_of_int (Z.to_hex_int z).

(** [format(n, "b")] for a non-negative [int]. *)
Fixpoint bin_pos (p : positive) (acc : string) : string :=
  match p with
  | xH => "1" +:+ acc
  | xO q => bin_pos q ("0" +:+ acc)
  | xI q => bin_pos q ("1" +:+ acc)
  end.

Definition bin_int (z : Z) : string :=
  match z with
  | Z0 => "0"
  | Zpos p => bin_pos p ""
  | Zneg p => "-" +:+ bin_pos p ""
  end.

(** ** Exceptions *)

(** The exception classes the file names or can run into, and the one it
    defines ([CustomException], line 363). *)
Inductive ExcClass :=
| BaseException | KeyboardInterrupt
| Exception
| ArithmeticError | ZeroDivisionError
| AssertionError | AttributeError
| NameError | TypeError | ValueError
| OSError | FileNotFoundError
| CustomException.

#[global] Instance ExcClass_eq_dec : EqDecision ExcClass.
Proof. solve_decision. Defined.

(** The direct base of each class, as in Python's built-in hierarchy;
    [class CustomException(Exception)]. *)
Definition exc_base (c : ExcClass) : option ExcClass :=
  match c with
  | BaseException => None
  | KeyboardInterrupt => Some BaseException
  | Exception => Some BaseException
  | ArithmeticError => Some Exception
  | ZeroDivisionError => Some ArithmeticError
  | AssertionError | AttributeError | NameError | TypeError | ValueError
  | OSError | CustomException => Some Exception
  | FileNotFoundError => Some OSError
  end.

Fixpoint ancestors (fuel : nat) (c : ExcClass) : list ExcClass :=
  c :: match fuel, exc_base c with
       | S f, Some b => ancestors f b
       | _, _ => []
       end.

(** [issubclass(c, d)]; the hierarchy above is four levels deep. *)
Definition issubclass (c d : ExcClass) : bool :=
  bool_decide (d ∈ ancestors 4 c).

Record Exc := mkExc { exc_class : ExcClass; exc_message : string }.

#[global] Instance Exc_eq_dec : EqDecision Exc.
Proof. solve_decision. Defined.

(** ** Results of evaluation *)

Inductive Outcome (A : Type) :=
| Ok (a : A)
| Raised (e : Exc).
Arguments Ok {A} a.
Arguments Raised {A} e.

#[global] Instance Outcome_ret : MRet Outcome := fun A a => Ok a.
#[global] Instance Outcome_bind : MBind Outcome := fun A B k o =>
  match o with
  | Ok a => k a
  | Raised e => Raised e
  end.

(** ** Numbers

    [int] is [Z].  A [float] is modelled by the rational it denotes; every
    float operation the file performs at its top level has an exactly
    representable result (2.4 apart, which is floored at once), so the
    rational and the float agree there. *)
Inductive Number :=
| NInt (z : Z)
| NFloat (q : Q).

Definition num_type (n : Number) : string :=
  match n with NInt _ => "int" | NFloat _ => "float" end.

Definition to_Q (n : Number) : Q :=
  match n with NInt z => inject_Z z | NFloat q => q end.

Definition is_zero (n : Number) : bool := Qeq_bool (to_Q n) 0.

Definition num_add (a b : Number) : Outcome Number :=
  match a, b with
  | NInt x, NInt y => Ok (NInt (x + y))
  | _, _ => Ok (NFloat (Qred (to_Q a + to_Q b)))
  end.

Definition num_sub (a b : Number) : Outcome Number :=
  match a, b with
  | NInt x, NInt y => Ok (NInt (x - y))
  | _, _ => Ok (NFloat (Qred (to_Q a - to_Q b)))
  end.

Definition num_mul (a b : Number) : Outcome Number :=
  match a, b with
  | NInt x, NInt y => Ok (NInt (x * y))
  | _, _ => Ok (NFloat (Qred (to_Q a * to_Q b)))
  end.

(** [a / b]: true division always gives a [float]. *)
Definition num_truediv (a b : Number) : Outcome Number :=
  if is_zero b then Raised (mkExc ZeroDivisionError "division by zero")
  else Ok (NFloat (Qred (to_Q a / to_Q b))).

(** [a // b]: floor division; [int] only when both operands are. *)
Definition num_floordiv (a b : Number) : Outcome Number :=
  if is_zero b then
    Raised (mkExc ZeroDivisionError "integer division or modulo by zero")
  else match a, b with
       | NInt x, NInt y => Ok (NInt (x / y))
       | _, _ => Ok (NFloat (inject_Z (Qfloor (to_Q a / to_Q b))))
       end.

(** [a % b]: the remainder has the sign of the divisor. *)
Definition num_mod (a b : Number) : Outcome Number :=
  if is_zero b then
    Raised (mkExc ZeroDivisionError "integer division or modulo by zero")
  else match a, b with
       | NInt x, NInt y => Ok (NInt (x mod y))
       | _, _ =>
           let q := inject_Z (Qfloor (to_Q a / to_Q b)) in
           Ok (NFloat (Qred (to_Q a - to_Q b * q)))
       end.

(** [a ** n] for an [int] exponent, the only kind the file writes. *)
Definition num_pow (a : Number) (n : Z) : Outcome Number :=
  if is_zero a && (n <? 0) then
    Raised (mkExc ZeroDivisionError "0.0 cannot be raised to a negative power")
  else match a with
       | NInt x => if 0 <=? n then Ok (NInt (x ^ n))
                   else Ok (NFloat (Qred (Qpower (inject_Z x) n)))
       | NFloat q => Ok (NFloat (Qred (Qpower q n)))
       end.

(** The bitwise operators are defined on [int] only; on a [float] operand
    they raise [TypeError].  [sym] is the operator as written, for the
    message. *)
Definition unsupported (sym : string) (a b : Number) : Exc :=
  mkExc TypeError
    ("unsupported operand type(s) for " +:+ sym +:+ ": '" +:+ num_type a
       +:+ "' and '" +:+ num_type b +:+ "'").

Definition num_bitop (sym : string) (f : Z -> Z -> Z) (a b : Number)
  : Outcome Number :=
  match a, b with
  | NInt x, NInt y => Ok (NInt (f x y))
  | _, _ => Raised (unsupported sym a b)
  end.

Definition num_shift (sym : string) (f : Z -> Z -> Z) (a b : Number)
  : Outcome Number :=
  match a, b with
  | NInt x, NInt y =>
      if y <? 0 then Raised (mkExc ValueError "negative shift count")
      else Ok (NInt (f x y))
  | _, _ => Raised (unsupported sym a b)
  end.

(** ** Values bound in the module namespace *)

#[warnings="-register-all"] Inductive Value :=
| VNone
| VBool (b : bool)
| VNum (n : Number)
| VComplex (re im : Q)
| VStr (s : string)
| VBytes (s : string)
| VList (items : list Value)
| VTuple (items : list Value)
| VSet (items : list Value)
| VDict (items : list (Value * Value))
| VObject (type_name : string).

Definition VInt (z : Z) : Value := VNum (NInt z).
Definition VFloat (q : Q) : Value := VNum (NFloat q).

(** [bool(v)] *)
Definition truthy (v : Value) : bool :=
  match v with
  | VNone => false
  | VBool b => b
  | VNum n => negb (is_zero n)
  | VComplex re im => negb (Qeq_bool re 0 && Qeq_bool im 0)
  | VStr s | VBytes s => negb (String.eqb s "")
  | VList l | VTuple l | VSet l => negb (Nat.eqb (length l) 0)
  | VDict l => negb (Nat.eqb (length l) 0)
  | VObject _ => true
  end.

(** [range(n)] *)
Definition range (n : nat) : list Z := map Z.of_nat (seq 0 n).

(** ** The world and the monad of statements *)

(** What a run can be observed to do: lines written to standard output,
    entries into the body of a function, method or class-creation hook
    defined in the file (by qualified name), file accesses, sleeps. *)
Inductive Event :=
| Stdout (text : string)
| Call (qualname : string)
| FileOpen (path mode : string)
| FileWrite (path data : string)
| Sleep (seconds : Q).

Record World := mkWorld {
  globals : gmap string Value;   (* the module's namespace *)
  files : gmap string string;    (* file contents by path *)
  trace : list Event             (* oldest event first *)
}.

Definition M (A : Type) : Type := World -> Outcome A * World.

#[global] Instance M_ret : MRet M := fun A a w => (Ok a, w).
#[global] Instance M_bind : MBind M := fun A B k m w =>
  match m w with
  | (Ok a, w') => k a w'
  | (Raised e, w') => (Raised e, w')
  end.

Definition raise {A} (e : Exc) : M A := fun w => (Raised e, w).

Definition lift {A} (o : Outcome A) : M A := fun w => (o, w).

Definition emit (e : Event) : M unit := fun w =>
  (Ok tt, mkWorld (globals w) (files w) (trace w ++ [e])).

(** [name = v] at module level. *)
Definition assign (name : string) (v : Value) : M unit := fun w =>
  (Ok tt, mkWorld (<[name := v]> (globals w)) (files w) (trace w)).

(** [print(text)] *)
Definition print (text : string) : M unit := emit (Stdout text).

(** Entry into the body of a definition of the file. *)
Definition enter (qualname : string) : M unit := emit (Call qualname).

(** [def name ...] and [class name ...] bind the name to the new object. *)
Definition def_function (name : string) : M unit := assign name (VObject "function").
Definition def_class (name : string) : M unit := assign name (VObject "type").

(** [import name] and [from ... import name] bind the name. *)
Definition import_ (name : string) : M unit := assign name (VObject "module").
Definition from_import (names : list string) : M unit :=
  foldr (fun n k => assign n (VObject "imported") ;; k) (mret tt) names.

Definition outcome {A} (r : Outcome A * World) : Outcome A := fst r.
Definition final {A} (r : Outcome A * World) : World := snd r.

(** ** A frame property of computations

    [confined allowed binds m]: whatever the world [m] starts in, it
    leaves the file system as it found it, adds to the trace only events
    that [allowed] accepts, and changes the binding of no name outside
    [binds].  The property is compositional, so it is proved of a program
    by following its statements, whether or not they run to completion. *)

Definition confined {A} (allowed : Event -> bool) (binds : string -> bool)
    (m : M A) : Prop :=
  forall w,
    files (final (m w)) = files w /\
    (exists evs, trace (final (m w)) = trace w ++ evs /\
                 Forall (fun e => allowed e = true) evs) /\
    (forall x, binds x = false -> globals (final (m w)) !! x = globals w !! x).

(** ** The module top level, lines 1 to 108

    One definition per commented section of the file, one step per
    statement.  A name read at the top level is always read after the
    statement that binds it, so reads are resolved to the bound value. *)

(** Lines 3-7: the module docstring becomes [__doc__]. *)
Definition module_doc : string :=
  nl +:+ "Comprehensive Python syntax for theme color testing." +:+ nl
     +:+ nl
     +:+ "This module contains various Python constructs to test syntax highlighting."
     +:+ nl.

Definition sec_docstring : M unit := assign "__doc__" (VStr module_doc).

(** Lines 9-19.  The standard-library modules import without an effect of
    their own. *)
Definition sec_imports : M unit :=
  import_ "os" ;;
  import_ "sys" ;;
  import_ "json" ;;
  import_ "asyncio" ;;
  from_import ["Dict"; "List"; "Optional"; "Union"; "Tuple"; "Any";
               "TypeVar"; "Generic"] ;;
  from_import ["defaultdict"; "namedtuple"] ;;
  from_import ["dataclass"; "field"] ;;
  from_import ["Enum"; "IntEnum"; "auto"] ;;
  from_import ["ABC"; "abstractmethod"] ;;
  from_import ["contextmanager"] ;;
  import_ "re".

(** Lines 28-30. *)
Definition sec_constants : M unit :=
  assign "CONSTANT_VALUE" (VInt 42) ;;
  assign "_PRIVATE_CONSTANT" (VStr "private") ;;
  assign "__DUNDER_CONSTANT" (VStr "dunder").

(** Lines 33-40.  [0b1010], [0o777] and [0xFF] are written in decimal. *)
Definition sec_numbers : M unit :=
  assign "integer" (VInt 123) ;;
  assign "float_num" (VFloat (314159 # 100000)) ;;
  assign "scientific" (VFloat (123 # 1000000)) ;;
  assign "negative" (VInt (-456)) ;;
  assign "binary" (VInt 10) ;;
  assign "octal" (VInt 511) ;;
  assign "hexadecimal" (VInt 255) ;;
  assign "complex_num" (VComplex 3 4).

(** Lines 43-62.  The f-string, [str.format] and [%] all insert [name]. *)
Definition sec_strings : M unit :=
  assign "single_quoted" (VStr "single quoted string") ;;
  assign "double_quoted" (VStr "double quoted string") ;;
  assign "triple_single"
    (VStr ("triple single quoted" +:+ nl +:+ "multiline string")) ;;
  assign "triple_double"
    (VStr ("triple double quoted" +:+ nl +:+ "multiline string")) ;;
  let name := "World" in
  assign "name" (VStr name) ;;
  assign "formatted_string" (VStr ("Hello, " +:+ name +:+ "!")) ;;
  assign "old_format" (VStr ("Hello, " +:+ name +:+ "!")) ;;
  assign "old_style" (VStr ("Hello, " +:+ name +:+ "!")) ;;
  assign "raw_string" (VStr "Raw string with \n no escaping") ;;
  assign "unicode_string" (VStr "Unicode: 🐍 ñ ü") ;;
  assign "byte_string" (VBytes "byte string") ;;
  assign "byte_array" (VObject "bytearray").

(** Lines 65-73. *)
Definition sec_collections : M unit :=
  assign "list_example"
    (VList [VInt 1; VInt 2; VInt 3; VStr "mixed"; VBool true; VNone]) ;;
  assign "tuple_example" (VTuple [VInt 1; VInt 2; VInt 3]) ;;
  assign "set_example" (VSet [VInt 1; VInt 2; VInt 3; VInt 4]) ;;
  assign "dict_example"
    (VDict [(VStr "key", VStr "value");
            (VInt 1, VStr "number key");
            (VTuple [VInt 1; VInt 2], VStr "tuple key");
            (VStr "spread", VStr "operator")]).

(** Lines 76-79.  The generator expression is created, not run. *)
Definition sec_comprehensions : M unit :=
  assign "list_comp"
    (VList (map (fun x => VInt (x ^ 2))
                (List.filter (fun x => x mod 2 =? 0) (range 10)))) ;;
  assign "dict_comp"
    (VDict (map (fun kv : nat * Z => (VInt (Z.of_nat kv.1), VInt (kv.2 ^ 2)))
                (imap (fun k v => (k, v)) (range 5)))) ;;
  assign "set_comp"
    (VSet (map VInt (List.filter (fun x => x mod 2 =? 0) (range 10)))) ;;
  assign "generator_exp" (VObject "generator").

(** Lines 82-84. *)
Definition sec_booleans : M unit :=
  assign "true_val" (VBool true) ;;
  assign "false_val" (VBool false) ;;
  assign "none_val" VNone.

(** [name op= rhs] on the value [cur] that [name] holds. *)
Definition aug_assign (name : string)
    (op : Number -> Number -> Outcome Number) (cur rhs : Number) : M Number :=
  r ← lift (op cur rhs) ;
  assign name (VNum r) ;;
  mret r.

(** Lines 87-103.  Operands are evaluated left to right and operators
    applied by precedence: [**] binds tightest, then [* / // %], then
    [+ -], then the shifts, [&], [^], [|]. *)
Definition sec_operators : M unit :=
  (* arithmetic = 1 + 2 - 3 * 4 / 5 // 6 % 7 ** 8 *)
  s ← lift (num_add (NInt 1) (NInt 2)) ;
  p ← lift (num_mul (NInt 3) (NInt 4)) ;
  d ← lift (num_truediv p (NInt 5)) ;
  f ← lift (num_floordiv d (NInt 6)) ;
  e ← lift (num_pow (NInt 7) 8) ;
  r ← lift (num_mod f e) ;
  arithmetic ← lift (num_sub s r) ;
  assign "arithmetic" (VNum arithmetic) ;;
  (* comparison = 1 < 2 <= 3 > 4 >= 5 == 6 != 7 *)
  assign "comparison"
    (VBool ((1 <? 2) && (2 <=? 3) && (3 >? 4) && (4 >=? 5) && (5 =? 6)
            && negb (6 =? 7))) ;;
  (* logical = True and False or not True *)
  assign "logical" (VBool ((true && false) || negb true)) ;;
  (* bitwise = 1 & 2 | 3 ^ 4 << 5 >> 6 *)
  a ← lift (num_bitop "&" Z.land (NInt 1) (NInt 2)) ;
  l ← lift (num_shift "<<" Z.shiftl (NInt 4) (NInt 5)) ;
  h ← lift (num_shift ">>" Z.shiftr l (NInt 6)) ;
  x ← lift (num_bitop "^" Z.lxor (NInt 3) h) ;
  bitwise ← lift (num_bitop "|" Z.lor a x) ;
  assign "bitwise" (VNum bitwise) ;;
  (* assignment = 1 and the thirteen augmented assignments *)
  let a0 := NInt 1 in
  assign "assignment" (VNum a0) ;;
  a1 ← aug_assign "assignment" num_add a0 (NInt 2) ;
  a2 ← aug_assign "assignment" num_sub a1 (NInt 1) ;
  a3 ← aug_assign "assignment" num_mul a2 (NInt 2) ;
  a4 ← aug_assign "assignment" num_truediv a3 (NInt 2) ;
  a5 ← aug_assign "assignment" num_floordiv a4 (NInt 2) ;
  a6 ← aug_assign "assignment" num_mod a5 (NInt 2) ;
  a7 ← aug_assign "assignment" (fun a _ => num_pow a 2) a6 (NInt 2) ;
  a8 ← aug_assign "assignment" (num_bitop "&=" Z.land) a7 (NInt 1) ;
  a9 ← aug_assign "assignment" (num_bitop "|=" Z.lor) a8 (NInt 1) ;
  a10 ← aug_assign "assignment" (num_bitop "^=" Z.lxor) a9 (NInt 1) ;
  a11 ← aug_assign "assignment" (num_shift "<<=" Z.shiftl) a10 (NInt 1) ;
  a12 ← aug_assign "assignment" (num_shift ">>=" Z.shiftr) a11 (NInt 1) ;
  mret tt.

(** Lines 106-107. *)
Definition sec_membership : M unit :=
  assign "membership" (VBool (bool_decide (1 ∈ [1; 2; 3]))) ;;
  assign "identity" (VBool true).

(** Lines 1-108, everything before the class definitions. *)
Definition module_head : M unit :=
  sec_docstring ;; sec_imports ;; sec_constants ;; sec_numbers ;;
  sec_strings ;; sec_collections ;; sec_comprehensions ;; sec_booleans ;;
  sec_operators ;; sec_membership.

(** ** Classes (lines 110-171)

    An instance is a record of its attributes; a method that assigns to
    [self] returns the updated instance.  Parameters carry the types of
    their annotations. *)

Module BaseClass.

Definition class_variable : string := "shared".
Definition _protected : string := "protected".
Definition __private : string := "private".

Record t := new {
  instance_variable : Z;
  _protected_instance : string;
  __private_instance : string
}.

(** [value: int = 0] *)
Definition default_value : Z := 0.

Definition __init__ (value : Z) : M t :=
  enter "BaseClass.__init__" ;;
  mret (new value "protected" "private").

Definition instance_method (self : t) : M string :=
  enter "BaseClass.instance_method" ;;
  mret ("Instance method: " +:+ str_int (instance_variable self)).

Definition class_method : M string :=
  enter "BaseClass.class_method" ;;
  mret ("Class method: " +:+ class_variable).

Definition static_method (param : string) : M string :=
  enter "BaseClass.static_method" ;;
  mret ("Static method: " +:+ param).

(** The [computed_property] getter (line 137) and setter (line 142). *)
Definition computed_property (self : t) : M Z :=
  enter "BaseClass.computed_property" ;;
  mret (instance_variable self * 2).

Definition set_computed_property (self : t) (value : Z) : M t :=
  enter "BaseClass.computed_property" ;;
  mret (new (value / 2) (_protected_instance self) (__private_instance self)).

Definition __str__ (self : t) : M string :=
  enter "BaseClass.__str__" ;;
  mret ("BaseClass(" +:+ str_int (instance_variable self) +:+ ")").

Definition __repr__ (self : t) : M string :=
  enter "BaseClass.__repr__" ;;
  mret ("BaseClass(value=" +:+ str_int (instance_variable self) +:+ ")").

Definition __len__ (self : t) : M Z :=
  enter "BaseClass.__len__" ;;
  mret (instance_variable self).

Definition __getitem__ (self : t) (key : Z) : M Z :=
  enter "BaseClass.__getitem__" ;;
  mret (instance_variable self + key).

Definition __setitem__ (self : t) (key value : Z) : M t :=
  enter "BaseClass.__setitem__" ;;
  mret (new (value - key) (_protected_instance self) (__private_instance self)).

End BaseClass.

Module DerivedClass.

(** [class DerivedClass(BaseClass)]: the attributes of the base and
    [extra]. *)
Record t := new { base : BaseClass.t; extra : string }.

Definition default_extra : string := "".

Definition __init__ (value : Z) (extra : string) : M t :=
  enter "DerivedClass.__init__" ;;
  b ← BaseClass.__init__ value ;
  mret (new b extra).

Definition instance_method (self : t) : M string :=
  enter "DerivedClass.instance_method" ;;
  parent_result ← BaseClass.instance_method (base self) ;
  mret (parent_result +:+ " + " +:+ extra self).

(** Inherited unchanged from [BaseClass]. *)
Definition __getitem__ (self : t) (key : Z) : M Z :=
  BaseClass.__getitem__ (base self) key.

Definition __setitem__ (self : t) (key value : Z) : M t :=
  b ← BaseClass.__setitem__ (base self) key value ;
  mret (new b (extra self)).

Definition computed_property (self : t) : M Z :=
  BaseClass.computed_property (base self).

Definition set_computed_property (self : t) (value : Z) : M t :=
  b ← BaseClass.set_computed_property (base self) value ;
  mret (new b (extra self)).

End DerivedClass.

(** The classes of the file and their direct bases, for [issubclass]. *)
Definition class_bases : list (string * list string) :=
  [ ("BaseClass", []); ("DerivedClass", ["BaseClass"]); ("Mixin", []);
    ("MultipleInheritance", ["BaseClass"; "Mixin"]);
    ("AbstractClass", ["ABC"]); ("DataClassExample", []);
    ("Color", ["Enum"]); ("Status", ["IntEnum"]);
    ("GenericClass", ["Generic"]); ("CustomException", ["Exception"]);
    ("IterableClass", []); ("MetaClass", ["type"]); ("ClassWithMeta", []) ].

Fixpoint issubclass_of (fuel : nat) (c d : string) : bool :=
  String.eqb c d ||
  match fuel with
  | O => false
  | S f =>
      match List.find (fun e => String.eqb e.1 c) class_bases with
      | Some e => existsb (fun b => issubclass_of f b d) e.2
      | None => false
      end
  end.

(** ** Functions (lines 238-287) *)

Definition simple_function (param : string) : M string :=
  enter "simple_function" ;;
  mret ("Hello, " +:+ param +:+ "!").

(** [b: int = 10, c: str = "default"] *)
Definition function_with_defaults (a b : Z) (c : string) : M (Z * string) :=
  enter "function_with_defaults" ;;
  mret (a + b, c).

Definition function_with_args (args : list Z) (kwargs : list (string * string))
  : M Value :=
  enter "function_with_args" ;;
  mret (VDict [(VStr "args", VTuple (map VInt args));
               (VStr "kwargs",
                VDict (map (fun kv => (VStr kv.1, VStr kv.2)) kwargs))]).

(** The result is [int] or [str] by [keyword_only]; [optional], [*args]
    and [**kwargs] are not read. *)
Definition function_with_annotations (required : string) (keyword_only : bool)
  : M (Z + string) :=
  enter "function_with_annotations" ;;
  if keyword_only then mret (inl (Z.of_nat (String.length required)))
  else mret (inr required).

(** A function object: its [__name__] and what calling it does. *)
Record Function (A B : Type) := mkFunction {
  __name__ : string;
  __call__ : A -> M B
}.
Arguments mkFunction {A B}.
Arguments __name__ {A B}.
Arguments __call__ {A B}.

Section Decorators.
Context {A B : Type}.

(** Lines 267-272.  [wrapper] does not take over the name of [func]. *)
Definition decorator_function (func : Function A B) : M (Function A B) :=
  enter "decorator_function" ;;
  let wrapper := mkFunction "wrapper" (fun args =>
    enter "decorator_function.<locals>.wrapper" ;;
    print ("Calling " +:+ __name__ func) ;;
    __call__ func args) in
  mret wrapper.

(** Lines 274-281. *)
Definition parametrized_decorator (param : string)
  : M (Function A B -> M (Function A B)) :=
  enter "parametrized_decorator" ;;
  let decorator := fun func : Function A B =>
    enter "parametrized_decorator.<locals>.decorator" ;;
    let wrapper := mkFunction "wrapper" (fun args =>
      enter "parametrized_decorator.<locals>.decorator.<locals>.wrapper" ;;
      print ("Decorator param: " +:+ param) ;;
      __call__ func args) in
    mret wrapper in
  mret decorator.

End Decorators.

(** Lines 283-287: the function as written, and the object that the two
    decorators leave under its name.  The decorator expressions are
    evaluated top down and applied bottom up. *)
Definition decorated_function_def : Function Z Z :=
  mkFunction "decorated_function" (fun x =>
    enter "decorated_function" ;;
    mret (x * 2)).

Definition decorated_function : M (Function Z Z) :=
  decorator ← parametrized_decorator "test" ;
  inner ← decorator decorated_function_def ;
  decorator_function inner.

(** ** Statements with handlers *)

(** [try: body / except classes as e: handler / else: orelse /
    finally: finalbody].  The first clause naming a class of the raised
    exception handles it; [orelse] runs when [body] raised nothing;
    [finalbody] runs in every case, and an exception still pending after
    it is raised again. *)
Definition handles (e : Exc) (clause : list ExcClass * (Exc -> M unit)) : bool :=
  existsb (issubclass (exc_class e)) clause.1.

Definition try_except (body : M unit)
    (clauses : list (list ExcClass * (Exc -> M unit)))
    (orelse finalbody : M unit) : M unit := fun w =>
  let r :=
    match body w with
    | (Ok _, w1) => orelse w1
    | (Raised e, w1) =>
        match List.find (handles e) clauses with
        | Some clause => clause.2 e w1
        | None => (Raised e, w1)
        end
    end in
  match r with
  | (Ok _, w2) => finalbody w2
  | (Raised e, w2) =>
      match finalbody w2 with
      | (Ok _, w3) => (Raised e, w3)
      | (Raised e', w3) => (Raised e', w3)
      end
  end.

(** [with cm: body], given what entering and leaving [cm] do.  Leaving
    receives the exception of the body, if any, and says whether to
    suppress it; the statement then yields no value. *)
Definition with_ {A} (enter_cm : M unit) (exit_cm : option Exc -> M bool)
    (body : M A) : M (option A) := fun w =>
  match enter_cm w with
  | (Raised e, w1) => (Raised e, w1)
  | (Ok _, w1) =>
      match body w1 with
      | (Ok a, w2) => (exit_cm None ;; mret (Some a)) w2
      | (Raised e, w2) =>
          (suppress ← exit_cm (Some e) ;
           if suppress : bool then mret None else raise e) w2
      end
  end.

Definition assert_ (b : bool) : M unit :=
  if b then mret tt else raise (mkExc AssertionError "").

(** ** Names the file calls but does not define

    [risky_operation] (line 347) and [some_async_context] (line 403) are
    bound nowhere in the file and are not builtins.  Calling such a name
    looks it up in the module namespace when the call runs: unbound, the
    call raises [NameError]; bound by code outside the file, it does
    whatever that object does, which [external] stands for. *)
Section External.
Variable external : string -> M Value.

Definition call_global (name : string) : M Value := fun w =>
  match globals w !! name with
  | Some _ => external name w
  | None =>
      (Raised (mkExc NameError ("name '" +:+ name +:+ "' is not defined")), w)
  end.

(** Lines 343-360. *)
Definition exception_examples : M unit :=
  enter "exception_examples" ;;
  try_except
    (call_global "risky_operation" ;; mret tt)
    [ ([ValueError],
       fun e => print ("ValueError: " +:+ exc_message e));
      ([TypeError; AttributeError],
       fun e => print ("Type or Attribute error: " +:+ exc_message e));
      ([Exception],
       fun e => print ("General exception: " +:+ exc_message e)) ]
    (print "No exception occurred")
    (print "Cleanup code") ;;
  raise (mkExc ValueError "Custom error message").

(** ** Async functions (lines 390-405)

    Calling an async function makes a coroutine and runs none of its body;
    awaiting the coroutine runs the body.  [asyncio.sleep] is observed as
    a [Sleep] event. *)
Definition Coroutine (A : Type) : Type := M A.
Definition await {A} (c : Coroutine A) : M A := c.

(** [delay: float = 1.0] *)
Definition default_delay : Q := 1.

Definition async_function (delay : Q) : M (Coroutine string) :=
  enter "async_function" ;;
  mret (emit (Sleep delay) ;; mret "Async result").

(** The async generator: each value it yields, with what runs when it is
    resumed after the [yield]. *)
Definition async_generator : M (list (Z * M unit)) :=
  enter "async_generator" ;;
  mret (map (fun i => (i, emit (Sleep (1 # 10)))) (range 5)).

(** The [return] leaves the [async with] block, whose [__aexit__] may
    suppress an exception of the body; the function then returns [None]. *)
Definition async_context_manager : M (Coroutine (option string)) :=
  enter "async_context_manager" ;;
  mret (
    call_global "some_async_context" ;;
    with_ (external "__aenter__" ;; mret tt)
          (fun _ => suppress ← external "__aexit__" ; mret (truthy suppress))
          (c ← async_function default_delay ;
           result ← await c ;
           mret result)).
End External.

(** ** Regular expressions (lines 408-411)

    [re.compile(r'\d+\.\d+').search]: the leftmost run of digits, a dot
    and a run of digits, each run as long as possible. *)
Definition is_digit (c : ascii) : bool :=
  (48 <=? nat_of_ascii c)%nat && (nat_of_ascii c <=? 57)%nat.

Fixpoint take_digits (s : string) : string * string :=
  match s with
  | String c s' =>
      if is_digit c then
        let '(d, r) := take_digits s' in (String c d, r)
      else (EmptyString, s)
  | EmptyString => (EmptyString, EmptyString)
  end.

Definition match_decimal (s : string) : option string :=
  let '(whole, r) := take_digits s in
  match whole, r with
  | String _ _, String "."%char r' =>
      match take_digits r' with
      | (String c d, _) => Some (whole +:+ "." +:+ String c d)
      | _ => None
      end
  | _, _ => None
  end.

Fixpoint search_decimal (s : string) : option string :=
  match match_decimal s with
  | Some m => Some m
  | None =>
      match s with
      | String _ s' => search_decimal s'
      | EmptyString => None
      end
  end.

(** ** File operations (lines 414-432) *)

(** [open(path, "r")] needs the file to exist; [open(path, "w")] creates
    or empties it. *)
Definition open_ (path mode : string) : M string := fun w =>
  let w' := mkWorld (globals w) (files w) (trace w ++ [FileOpen path mode]) in
  if String.eqb mode "w" then
    (Ok path, mkWorld (globals w') (<[path := ""]> (files w')) (trace w'))
  else
    match files w !! path with
    | Some _ => (Ok path, w')
    | None =>
        (Raised (mkExc FileNotFoundError
                   ("[Errno 2] No such file or directory: '" +:+ path +:+ "'")),
         w)
    end.

Definition read (f : string) : M string := fun w =>
  (Ok (default "" (files w !! f)), w).

Definition write (f data : string) : M unit := fun w =>
  (Ok tt,
   mkWorld (globals w)
           (<[f := default "" (files w !! f) +:+ data]> (files w))
           (trace w ++ [FileWrite f data])).

(** [json.dump({"key": "value", "number": 42}, f, indent=2)] writes this
    text. *)
Definition data_json : string :=
  "{" +:+ nl
  +:+ "  " +:+ dq +:+ "key" +:+ dq +:+ ": " +:+ dq +:+ "value" +:+ dq +:+ ","
  +:+ nl
  +:+ "  " +:+ dq +:+ "number" +:+ dq +:+ ": 42" +:+ nl
  +:+ "}".

Definition file_operations : M unit :=
  enter "file_operations" ;;
  f ← open_ "data.txt" "r" ;
  lines ← read f ;
  f ← open_ "output.txt" "w" ;
  write f ("Hello, World!" +:+ nl) ;;
  write f ("Line 1" +:+ nl) ;;
  write f ("Line 2" +:+ nl) ;;
  f ← open_ "data.json" "w" ;
  write f data_json ;;
  f ← open_ "data.json" "r" ;
  loaded_data ← read f ;
  mret tt.

(** ** Custom exception (lines 363-368) and metaclass (lines 478-487) *)

Module CustomException.
Record t := new { message : string; code : Z }.
Definition default_code : Z := 0.
Definition __init__ (message : string) (code : Z) : M t :=
  enter "CustomException.__init__" ;;
  mret (new message code).
End CustomException.

Module MetaClass.
(** The class made from [attrs]; [type.__new__] keeps them. *)
Definition __new__ (name : string) (bases : list string)
    (attrs : gmap string Value) : M (gmap string Value) :=
  enter "MetaClass.__new__" ;;
  mret (<["meta_attribute" := VStr "Added by metaclass"]> attrs).
End MetaClass.

(** ** The module top level, lines 109 to 553 *)

(** Lines 110-235: the class statements, [Point] and the type variables. *)
Definition sec_classes : M unit :=
  def_class "BaseClass" ;;
  def_class "DerivedClass" ;;
  def_class "Mixin" ;;
  def_class "MultipleInheritance" ;;
  def_class "AbstractClass" ;;
  def_class "DataClassExample" ;;
  def_class "Point" ;;
  assign "point" (VTuple [VInt 1; VInt 2]) ;;
  def_class "Color" ;;
  def_class "Status" ;;
  assign "T" (VObject "TypeVar") ;;
  assign "U" (VObject "TypeVar") ;;
  def_class "GenericClass".

(** Lines 238-264. *)
Definition sec_functions : M unit :=
  def_function "simple_function" ;;
  def_function "function_with_defaults" ;;
  def_function "function_with_args" ;;
  def_function "function_with_annotations" ;;
  def_function "lambda_simple" ;;
  def_function "lambda_complex".

(** Lines 267-287: decorating [decorated_function] calls both
    decorators. *)
Definition sec_decorators : M unit :=
  def_function "decorator_function" ;;
  def_function "parametrized_decorator" ;;
  _ ← decorated_function ;
  def_function "decorated_function".

(** Lines 290-405: definitions only; [contextmanager] wraps the generator
    function without running it. *)
Definition sec_control_flow : M unit :=
  def_function "control_flow_examples" ;;
  def_function "exception_examples" ;;
  def_class "CustomException" ;;
  def_function "custom_context_manager" ;;
  def_function "context_manager_examples" ;;
  def_function "async_function" ;;
  def_function "async_generator" ;;
  def_function "async_context_manager".

(** Lines 408-411. *)
Definition sec_regex : M unit :=
  assign "pattern" (VObject "re.Pattern") ;;
  let m := search_decimal "Version 1.23.4" in
  match m with
  | Some group =>
      assign "match" (VObject "re.Match") ;;
      assign "version" (VStr group)
  | None => assign "match" VNone
  end.

(** Lines 414-475: definitions only. *)
Definition sec_protocols : M unit :=
  def_function "file_operations" ;;
  def_function "builtin_examples" ;;
  def_class "IterableClass".

(** Lines 478-487: creating [ClassWithMeta] calls [MetaClass.__new__]
    with the namespace of the class body. *)
Definition sec_metaclass (name : string) : M unit :=
  def_class "MetaClass" ;;
  _ ← MetaClass.__new__ "ClassWithMeta" []
        (<["__module__" := VStr name]>
           (<["__qualname__" := VStr "ClassWithMeta"]>
              (<["__doc__" := VStr "Class using metaclass."]> ∅))) ;
  def_class "ClassWithMeta".

(** [a, b, *rest = l] and [first, *middle, last = l] *)
Definition too_few (l : list Z) : Exc :=
  mkExc ValueError
    ("not enough values to unpack (expected at least 2, got "
       +:+ str_int (Z.of_nat (length l)) +:+ ")").

Definition unpack_head (l : list Z) : Outcome (Z * Z * list Z) :=
  match l with
  | a :: b :: rest => Ok (a, b, rest)
  | _ => Raised (too_few l)
  end.

Definition unpack_ends (l : list Z) : Outcome (Z * list Z * Z) :=
  match l with
  | first :: tl =>
      match reverse tl with
      | last :: middle => Ok (first, reverse middle, last)
      | [] => Raised (too_few l)
      end
  | [] => Raised (too_few l)
  end.

(** Lines 490-518: the block run when the file is executed as a script. *)
Definition sec_main (name : string) : M unit :=
  if String.eqb name "__main__" then
    print "Running as main module" ;;
    '(a, b, rest) ← lift (unpack_head [1; 2; 3; 4; 5]) ;
    assign "a" (VInt a) ;;
    assign "b" (VInt b) ;;
    assign "rest" (VList (map VInt rest)) ;;
    '(first, middle, last) ← lift (unpack_ends (range 10)) ;
    assign "first" (VInt first) ;;
    assign "middle" (VList (map VInt middle)) ;;
    assign "last" (VInt last) ;;
    let dict1 := [(VStr "a", VInt 1); (VStr "b", VInt 2)] in
    assign "dict1" (VDict dict1) ;;
    assign "dict2" (VDict ((VStr "c", VInt 3) :: dict1)) ;;
    let args := [1; 2; 3] in
    assign "args" (VTuple (map VInt args)) ;;
    let kwargs := [("keyword", "value")] in
    assign "kwargs" (VDict [(VStr "keyword", VStr "value")]) ;;
    result ← function_with_args args kwargs ;
    assign "result" result ;;
    let n := Z.of_nat (String.length "hello") in
    assign "n" (VInt n) ;;
    (if 3 <? n then print ("Length is " +:+ str_int n) else mret tt) ;;
    let value := 42 in
    assign "value" (VInt value) ;;
    print ("Value: " +:+ str_int value +:+ ", Hex: " +:+ hex_int value
             +:+ ", Binary: " +:+ bin_int value) ;;
    print ("Calculation: 2 + 3 = " +:+ str_int (2 + 3)) ;;
    assert_ true ;;   (* isinstance(value, int): [value] is an [int] *)
    assert_ (issubclass_of 3 "DerivedClass" "BaseClass")
  else mret tt.

(** Lines 521-534. *)
Definition sec_global : M unit :=
  assign "global_var" (VStr "global") ;;
  def_function "outer_function".

(** Lines 537-539. *)
Definition sec_special_attributes (name file : string) : M unit :=
  print name ;;
  print file ;;
  print module_doc.

(** Lines 542-553. *)
Definition sec_annotations : M unit :=
  def_function "placeholder_function" ;;
  def_function "annotated_function".

Definition module_tail (name file : string) : M unit :=
  sec_classes ;; sec_functions ;; sec_decorators ;; sec_control_flow ;;
  sec_regex ;; sec_protocols ;; sec_metaclass name ;; sec_main name ;;
  sec_global ;; sec_special_attributes name file ;; sec_annotations.

(** The whole file, evaluated under module name [name] from path [file]. *)
Definition tokens (name file : string) : M unit :=
  module_head ;; module_tail name file.

(** A run starts in a namespace that holds [__name__] and [__file__], with
    nothing observed yet; [fs] is the file system it finds. *)
Definition init_world (name file : string) (fs : gmap string string) : World :=
  mkWorld (<["__name__" := VStr name]> (<["__file__" := VStr file]> ∅)) fs [].

Definition run_tokens (name file : string) (fs : gmap string string)
  : Outcome unit * World :=
  tokens name file (init_world name file fs).

(** ** Pattern matching (lines 327-340)

    [match_example] is defined inside [control_flow_examples].  A literal
    pattern compares with [==], a capture pattern with a guard evaluates
    the guard, a sequence pattern applies to lists and tuples, a mapping
    pattern to dicts, and [str(name)], [int(age)] test the class of the
    item; [bool] is a subclass of [int]. *)

(** [type(v).__name__] *)
Definition type_of (v : Value) : string :=
  match v with
  | VNone => "NoneType"
  | VBool _ => "bool"
  | VNum n => num_type n
  | VComplex _ _ => "complex"
  | VStr _ => "str"
  | VBytes _ => "bytes"
  | VList _ => "list"
  | VTuple _ => "tuple"
  | VSet _ => "set"
  | VDict _ => "dict"
  | VObject t => t
  end.

(** The [int] that an instance of [int] stands for. *)
Definition int_of (v : Value) : option Z :=
  match v with
  | VBool b => Some (if b then 1 else 0)
  | VNum (NInt z) => Some z
  | _ => None
  end.

(** The number that a [bool], [int] or [float] stands for. *)
Definition real_of (v : Value) : option Q :=
  match v with
  | VBool b => Some (inject_Z (if b then 1 else 0))
  | VNum n => Some (to_Q n)
  | _ => None
  end.

(** [v == k] for an [int] literal [k]: numbers compare by value, and no
    other object of the model equals an [int]. *)
Definition eq_int (v : Value) (k : Z) : bool :=
  match v with
  | VComplex re im => Qeq_bool re (inject_Z k) && Qeq_bool im 0
  | _ =>
      match real_of v with
      | Some q => Qeq_bool q (inject_Z k)
      | None => false
      end
  end.

(** [v > k] for an [int] literal [k]: defined between real numbers, a
    [TypeError] for every other object of the model. *)
Definition gt_int (v : Value) (k : Z) : Outcome bool :=
  match real_of v with
  | Some q => Ok (negb (Qle_bool q (inject_Z k)))
  | None =>
      Raised (mkExc TypeError
                ("'>' not supported between instances of '" +:+ type_of v
                   +:+ "' and 'int'"))
  end.

(** [d[key]] for a [str] key; a later item replaces an earlier one with
    the same key. *)
Definition dict_get (items : list (Value * Value)) (key : string)
  : option Value :=
  snd <$> List.find
            (fun kv => match kv.1 with
                       | VStr k => String.eqb k key
                       | _ => false
                       end)
            (reverse items).

Section MatchExample.
(** [format(v)], as the f-string of line 336 applies it to [rest]. *)
Variable render : Value -> string.

(** [case [1, 2, *rest]] *)
Definition case_sequence (value : Value) : option string :=
  match value with
  | VList (a :: b :: rest) | VTuple (a :: b :: rest) =>
      if eq_int a 1 && eq_int b 2
      then Some ("list starting with 1, 2: " +:+ render (VList rest))
      else None
  | _ => None
  end.

(** [case {"name": str(name), "age": int(age)} if age >= 18] *)
Definition case_mapping (value : Value) : option string :=
  match value with
  | VDict items =>
      match dict_get items "name", dict_get items "age" with
      | Some (VStr name), Some age =>
          match int_of age with
          | Some n => if 18 <=? n then Some ("adult named " +:+ name) else None
          | None => None
          end
      | _, _ => None
      end
  | _ => None
  end.

Definition match_example (value : Value) : M string :=
  enter "control_flow_examples.<locals>.match_example" ;;
  if eq_int value 1 then mret "one"
  else if eq_int value 2 || eq_int value 3 then mret "two or three"
  else
    above ← lift (gt_int value 10) ;
    if above : bool then mret "greater than ten"
    else
      match case_sequence value with
      | Some text => mret text
      | None =>
          match case_mapping value with
          | Some text => mret text
          | None => mret "default case"
          end
      end.
End MatchExample.

(** ** Context managers (lines 371-387) *)

(** What [with] needs of a context manager: entering gives the value
    bound by [as]; leaving receives the exception of the body, if any, and
    says whether to suppress it. *)
Record ContextManager (A : Type) := mkContextManager {
  __enter__ : M A;
  __exit__ : option Exc -> M bool
}.
Arguments mkContextManager {A}.
Arguments __enter__ {A}.
Arguments __exit__ {A}.

(** [with cm as x: body x] *)
Definition with_as {A B} (cm : ContextManager A) (body : A -> M B)
  : M (option B) :=
  x ← __enter__ cm ;
  with_ (mret tt) (__exit__ cm) (body x).

(** Lines 371-378.  Under [contextmanager] the code before the [yield]
    runs on entering and the [finally] on leaving, with or without an
    exception, which the generator does not catch. *)
Definition custom_context_manager : M (ContextManager string) :=
  enter "custom_context_manager" ;;
  mret (mkContextManager
          (print "Entering context" ;; mret "context value")
          (fun _ => print "Exiting context" ;; mret false)).


(** ** Text of a run of digits *)

Fixpoint all_digits (s : string) : bool :=
  match s with
  | EmptyString => true
  | String c s' => is_digit c && all_digits s'
  end.

(** Text in which every character is ASCII.  There [\d] stands for the
    ten digits [0] to [9], as [is_digit] has it; in other text Python
    counts further characters as digits. *)
Fixpoint ascii_text (s : string) : bool :=
  match s with
  | EmptyString => true
  | String c s' => (nat_of_ascii c <? 128)%nat && ascii_text s'
  end.

(** A text that [\d+\.\d+] matches in full. *)
Definition decimal_text (m : string) : Prop :=
  exists whole frac,
    m = whole +:+ "." +:+ frac /\
    whole <> "" /\ frac <> "" /\
    all_digits whole = true /\ all_digits frac = true.

(** What evaluating the module may be observed to do: print, and enter
    the five definitions that its top level calls. *)
Definition module_event (e : Event) : bool :=
  match e with
  | Stdout _ => true
  | Call q =>
      bool_decide (q ∈ ["parametrized_decorator";
                        "parametrized_decorator.<locals>.decorator";
                        "decorator_function";
                        "MetaClass.__new__";
                        "function_with_args"])
  | FileOpen _ _ | FileWrite _ _ | Sleep _ => false
  end.

(** The two names that the file calls without defining them. *)
Definition undefined_names : list string :=
  ["risky_operation"; "some_async_context"].

Definition module_binds (x : string) : bool :=
  negb (bool_decide (x ∈ undefined_names)).

Definition empty_world : World := mkWorld ∅ ∅ [].

(** [standalone q m]: running [m], the body of the definition named [q],
    enters no other definition of the file. *)
Definition only_self (q : string) (e : Event) : bool :=
  match e with
  | Call q' => String.eqb q' q
  | _ => true
  end.

Definition standalone {A} (q : string) (m : M A) : Prop :=
  forall w, exists evs,
    trace (final (m w)) = trace w ++ evs /\
    forall q', Call q' ∈ evs -> q' = q.

(** * Properties *)

Section Confined.
Variable allowed : Event -> bool.
Variable binds : string -> bool.

Lemma confined_ret {A} (a : A) : confined allowed binds (mret a).
Proof.
  intros w. split; [reflexivity|]. split; [|reflexivity].
  exists []. split; [|constructor]. symmetry. apply app_nil_r.
Qed.

Lemma confined_raise {A} (e : Exc) : confined allowed binds (@raise A e).
Proof. exact (confined_ret tt). Qed.

Lemma confined_lift {A} (o : Outcome A) : confined allowed binds (lift o).
Proof. exact (confined_ret tt). Qed.

Lemma confined_assign name v :
  binds name = true -> confined allowed binds (assign name v).
Proof.
  intros Hb w. split; [reflexivity|]. split.
  - exists []. split; [|constructor]. symmetry. apply app_nil_r.
  - intros x Hx. cbn. apply lookup_insert_ne. congruence.
Qed.

Lemma confined_emit e : allowed e = true -> confined allowed binds (emit e).
Proof.
  intros He w. split; [reflexivity|]. split; [|reflexivity].
  exists [e]. split; [reflexivity|]. constructor; [exact He | constructor].
Qed.

Lemma confined_bind {A B} (m : M A) (k : A -> M B) :
  confined allowed binds m -> (forall a, confined allowed binds (k a)) ->
  confined allowed binds (m ≫= k).
Proof.
  intros Hm Hk w. unfold mbind, M_bind.
  destruct (Hm w) as (Hf & (evs & Ht & Hall) & Hg).
  destruct (m w) as [[a|e] w1]; cbn in *.
  - destruct (Hk a w1) as (Hf' & (evs' & Ht' & Hall') & Hg').
    split; [congruence|]. split.
    + exists (evs ++ evs'). split.
      * rewrite Ht', Ht. symmetry. apply app_assoc.
      * apply Forall_app. split; assumption.
    + intros x Hx. rewrite (Hg' x Hx). apply Hg, Hx.
  - split; [assumption|]. split; [|assumption]. exists evs. split; assumption.
Qed.

Lemma confined_from_import names :
  forallb binds names = true -> confined allowed binds (from_import names).
Proof.
  induction names as [|n names IH]; cbn; intros Hb.
  - apply confined_ret.
  - apply andb_prop in Hb as [Hn Hns].
    apply confined_bind; [apply confined_assign, Hn | intros _; exact (IH Hns)].
Qed.
End Confined.

(** Follows the statements of a program built from the combinators above,
    choosing the lemma by the shape of the statement; the events and names
    it meets are checked by evaluation. *)
Ltac confine_step :=
  lazymatch goal with
  | |- confined _ _ (mbind _ _) => simple apply confined_bind; [| intros ?]
  | |- confined _ _ (mret _) => simple apply confined_ret
  | |- confined _ _ (raise _) => simple apply confined_raise
  | |- confined _ _ (lift _) => simple apply confined_lift
  | |- confined _ _ (assign _ _) => simple apply confined_assign; reflexivity
  | |- confined _ _ (from_import _) =>
      simple apply confined_from_import; reflexivity
  | |- confined _ _ (emit _) => simple apply confined_emit; reflexivity
  | |- confined _ _ (match ?x with _ => _ end) => destruct x
  | |- confined _ _ (let _ := _ in _) => cbv zeta
  end.

Ltac confine := repeat confine_step.

(** Runs the monad on the world at hand, leaving maps and lists folded. *)
Ltac run :=
  cbv [mbind mret M_bind M_ret raise lift emit assign print enter
       outcome final fst snd globals files trace
       String.eqb Ascii.eqb Bool.eqb].

Lemma module_head_confined : confined module_event module_binds module_head.
Proof.
  unfold module_head, sec_docstring, sec_imports, sec_constants, sec_numbers,
    sec_strings, sec_collections, sec_comprehensions, sec_booleans,
    sec_operators, sec_membership, aug_assign, import_.
  confine.
Qed.

(** Decorating [decorated_function] enters the two decorators and the
    inner [decorator], and nothing else. *)
Lemma decorated_function_confined :
  confined module_event module_binds decorated_function.
Proof.
  intros w. split; [reflexivity|]. split; [|reflexivity].
  exists [Call "parametrized_decorator";
          Call "parametrized_decorator.<locals>.decorator";
          Call "decorator_function"].
  split.
  - cbv -[app]. rewrite <- !app_assoc. reflexivity.
  - repeat constructor.
Qed.

Lemma module_tail_confined name file :
  confined module_event module_binds (module_tail name file).
Proof.
  unfold module_tail, sec_classes, sec_functions, sec_decorators,
    sec_control_flow, sec_regex, sec_protocols, sec_metaclass, sec_main,
    sec_global, sec_special_attributes, sec_annotations,
    MetaClass.__new__, function_with_args, assert_,
    def_class, def_function, print, enter.
  repeat first [simple apply decorated_function_confined | confine_step].
Qed.

Lemma tokens_confined name file :
  confined module_event module_binds (tokens name file).
Proof.
  unfold tokens. simple apply confined_bind.
  - exact module_head_confined.
  - intros _. exact (module_tail_confined name file).
Qed.

Lemma not_in_allowed (allowed : Event -> bool) (e : Event) (evs : list Event) :
  Forall (fun e => allowed e = true) evs -> allowed e = false -> e ∉ evs.
Proof.
  intros Hall He Hin. rewrite Forall_forall in Hall.
  specialize (Hall e Hin). congruence.
Qed.

(** The module cannot be imported or run: line 99 applies [&=] to the
    [float] that line 95 left in [assignment]. *)
Lemma tokens_raises_TypeError name file w :
  outcome (tokens name file w) =
    Raised (mkExc TypeError
              "unsupported operand type(s) for &=: 'float' and 'int'").
Proof. reflexivity. Qed.

Lemma tokens_assignment_is_float name file fs :
  globals (final (run_tokens name file fs)) !! "assignment" = Some (VFloat 1).
Proof. reflexivity. Qed.

(** What the statements after line 108 do when they are reached, here as a
    script: they run to the end, entering the decorators, the metaclass
    hook and [function_with_args], and printing seven lines. *)
Lemma module_tail_runs (file : string) (fs : gmap string string) :
  let r := module_tail "__main__" file (init_world "__main__" file fs) in
  outcome r = Ok tt /\
  trace (final r) =
    [Call "parametrized_decorator";
     Call "parametrized_decorator.<locals>.decorator";
     Call "decorator_function";
     Call "MetaClass.__new__";
     Stdout "Running as main module";
     Call "function_with_args";
     Stdout "Length is 5";
     Stdout "Value: 42, Hex: 2a, Binary: 101010";
     Stdout "Calculation: 2 + 3 = 5";
     Stdout "__main__";
     Stdout file;
     Stdout module_doc].
Proof. split; reflexivity. Qed.

Lemma sec_main_runs w :
    outcome (sec_main "__main__" w) = Ok tt /\
    trace (final (sec_main "__main__" w)) =
      trace w ++ [Stdout "Running as main module";
                  Call "function_with_args";
                  Stdout "Length is 5";
                  Stdout "Value: 42, Hex: 2a, Binary: 101010";
                  Stdout "Calculation: 2 + 3 = 5"].
Proof.
  split; [reflexivity|].
  cbv -[app]. rewrite <- !app_assoc. reflexivity.
Qed.

Lemma standalone_of_confined {A} (q : string) (m : M A) :
  confined (only_self q) (fun _ => true) m -> standalone q m.
Proof.
  intros Hc w. destruct (Hc w) as (_ & (evs & Ht & Hall) & _).
  exists evs. split; [exact Ht|].
  intros q' Hin. rewrite Forall_forall in Hall.
  specialize (Hall _ Hin). cbn in Hall.
  apply String.eqb_eq, Hall.
Qed.

Ltac alone :=
  apply standalone_of_confined;
  unfold enter, print; confine.

(** ** The top level is a program *)

(** C1, refuted as stated.  Importing the module as [tokens] does not
    leave the world as it was: it has computed and bound, among others,
    the squares of the even numbers below ten. *)
Lemma C1_import_is_not_silent :
  run_tokens "tokens" "examples/tokens.py" ∅ <>
    (Ok tt, init_world "tokens" "examples/tokens.py" ∅).
Proof.
  intros H.
  apply (f_equal (fun r => globals (final r) !! "list_comp")) in H.
  vm_compute in H. discriminate H.
Qed.

(** C1, amended.  The top level is runnable code.  Evaluating it computes
    values and binds them in the module namespace; the statements of lines
    537-539 print [__name__], [__file__] and [__doc__]; the search of
    lines 408-411 finds ["1.23"] and binds it to [version]. *)
Theorem C1_top_level_computes (name file : string) (fs : gmap string string) :
  let g := globals (final (run_tokens name file fs)) in
  (g !! "list_comp" =
     Some (VList [VInt 0; VInt 4; VInt 16; VInt 36; VInt 64]) /\
   g !! "dict_comp" =
     Some (VDict [(VInt 0, VInt 0); (VInt 1, VInt 1); (VInt 2, VInt 4);
                  (VInt 3, VInt 9); (VInt 4, VInt 16)]) /\
   g !! "formatted_string" = Some (VStr "Hello, World!") /\
   g !! "arithmetic" = Some (VFloat 3) /\
   g !! "comparison" = Some (VBool false) /\
   g !! "bitwise" = Some (VInt 1)) /\
  (forall w,
     outcome (sec_special_attributes name file w) = Ok tt /\
     trace (final (sec_special_attributes name file w)) =
       trace w ++ [Stdout name; Stdout file; Stdout module_doc]) /\
  (forall w,
     outcome (sec_regex w) = Ok tt /\
     globals (final (sec_regex w)) !! "version" = Some (VStr "1.23")).
Proof.
  split; [repeat split; reflexivity|].
  split; intros w; (split; [reflexivity|]).
  - cbv -[app]. rewrite <- !app_assoc. reflexivity.
  - cbn. apply lookup_insert_eq.
Qed.

(** ** Exceptions *)

(** C2.  Evaluating the module, from any world and whether or not it
    completes, never enters [exception_examples], the only function with
    handlers, nor constructs a [CustomException]: no handler of the file
    catches or passes on anything. *)
Theorem C2_handlers_never_exercised (name file : string) (w : World) :
  exists evs,
    trace (final (tokens name file w)) = trace w ++ evs /\
    (Call "exception_examples" ∉ evs) /\
    (Call "CustomException.__init__" ∉ evs).
Proof.
  destruct (tokens_confined name file w) as (_ & (evs & Ht & Hall) & _).
  exists evs. split; [exact Ht|].
  split; eapply not_in_allowed; eauto.
Qed.

(** C10.  Where [risky_operation] is unbound, as the file leaves it,
    every call of [exception_examples] ends by raising
    [ValueError("Custom error message")]: the [NameError] of the call is
    caught by the [except Exception] clause, the [else] branch is skipped,
    the [finally] branch runs, and the final [raise] is reached. *)
Theorem C10_exception_examples_raises
    (external : string -> M Value) (w : World) :
  globals w !! "risky_operation" = None ->
  exception_examples external w =
    (Raised (mkExc ValueError "Custom error message"),
     mkWorld (globals w) (files w)
       (trace w ++
          [Call "exception_examples";
           Stdout "General exception: name 'risky_operation' is not defined";
           Stdout "Cleanup code"])).
Proof.
  intros Hunbound.
  cbv -[app lookup] in Hunbound |- *. rewrite Hunbound.
  rewrite <- !app_assoc. reflexivity.
Qed.

(** Evaluating the module binds neither of the names that the file calls
    without defining. *)
Lemma tokens_leaves_undefined (name file x : string) (w : World) :
  x ∈ undefined_names ->
  globals (final (tokens name file w)) !! x = globals w !! x.
Proof.
  intros Hx. destruct (tokens_confined name file w) as (_ & _ & Hg).
  apply Hg. unfold module_binds. rewrite bool_decide_eq_true_2; [reflexivity|].
  exact Hx.
Qed.

(** The namespace that evaluating the module leaves behind is one in
    which the call raises as C10 says. *)
Lemma C10_witness :
  let w := final (run_tokens "__main__" "examples/tokens.py" ∅) in
  globals w !! "risky_operation" = None /\
  exception_examples (fun _ => mret VNone) w =
    (Raised (mkExc ValueError "Custom error message"),
     mkWorld (globals w) (files w)
       (trace w ++
          [Call "exception_examples";
           Stdout "General exception: name 'risky_operation' is not defined";
           Stdout "Cleanup code"])).
Proof.
  split; [reflexivity|].
  apply (C10_exception_examples_raises (fun _ => mret VNone)).
  reflexivity.
Defined.

(** ** Async functions *)

(** C3, refuted as stated.  Code of the module does call and await an
    async function: once [some_async_context] is bound, awaiting
    [async_context_manager()] enters [async_function] and runs its
    body. *)
Lemma C3_async_context_manager_awaits_async_function :
  let external := fun _ : string => mret VNone in
  let w := mkWorld (<["some_async_context" := VObject "function"]> ∅) ∅ [] in
  let r := (c ← async_context_manager external ; await c) w in
  outcome r = Ok (Some "Async result") /\
  trace (final r) =
    [Call "async_context_manager"; Call "async_function"; Sleep 1].
Proof. split; reflexivity. Qed.

(** C3, amended.  Evaluating the module, from any world, enters none of
    the three async functions.  The body of [async_context_manager] does
    await [async_function()], inside [async with some_async_context()];
    with [some_async_context] unbound, as the file leaves it, that body
    raises [NameError] before it gets there. *)
Theorem C3_async_never_invoked_by_module
    (name file : string) (external : string -> M Value) (w : World) :
  (exists evs,
     trace (final (tokens name file w)) = trace w ++ evs /\
     (Call "async_function" ∉ evs) /\
     (Call "async_generator" ∉ evs) /\
     (Call "async_context_manager" ∉ evs)) /\
  (globals w !! "some_async_context" = None ->
   (c ← async_context_manager external ; await c) w =
     (Raised (mkExc NameError "name 'some_async_context' is not defined"),
      mkWorld (globals w) (files w)
        (trace w ++ [Call "async_context_manager"]))).
Proof.
  split.
  - destruct (tokens_confined name file w) as (_ & (evs & Ht & Hall) & _).
    exists evs. split; [exact Ht|].
    repeat split; eapply not_in_allowed; eauto.
  - intros Hunbound.
    cbv -[app lookup] in Hunbound |- *. rewrite Hunbound. reflexivity.
Qed.

(** The namespace that evaluating the module leaves behind has
    [some_async_context] unbound, and the body stops at the [NameError]. *)
Lemma C3_witness :
  let w := final (run_tokens "tokens" "examples/tokens.py" ∅) in
  globals w !! "some_async_context" = None /\
  (c ← async_context_manager (fun _ => mret VNone) ; await c) w =
    (Raised (mkExc NameError "name 'some_async_context' is not defined"),
     mkWorld (globals w) (files w)
       (trace w ++ [Call "async_context_manager"])).
Proof.
  split; [reflexivity|].
  apply (C3_async_never_invoked_by_module "tokens" "examples/tokens.py").
  reflexivity.
Defined.

(** ** State *)

(** C4, refuted as stated.  An instance made by [BaseClass(0)] holds 0;
    after [obj[1] = 5] the same instance holds 4. *)
Lemma C4_setitem_changes_instance :
  outcome ((obj ← BaseClass.__init__ 0 ;
            before ← BaseClass.__len__ obj ;
            obj ← BaseClass.__setitem__ obj 1 5 ;
            after ← BaseClass.__len__ obj ;
            mret (before, after)) empty_world) = Ok (0, 4).
Proof. reflexivity. Qed.

(** C4, amended.  [BaseClass] instances carry mutable state:
    [instance_variable] holds the value given to [__init__] until the
    [computed_property] setter stores [value // 2] or [__setitem__] stores
    [value - key]; both leave the other two attributes as they were.
    Evaluating the module constructs no [BaseClass] or [DerivedClass]
    instance. *)
Theorem C4_BaseClass_state :
  (forall value w,
     outcome ((obj ← BaseClass.__init__ value ; BaseClass.__len__ obj) w)
       = Ok value) /\
  (forall self key value w,
     exists self',
       outcome (BaseClass.__setitem__ self key value w) = Ok self' /\
       outcome (BaseClass.__len__ self' w) = Ok (value - key) /\
       BaseClass._protected_instance self' = BaseClass._protected_instance self /\
       BaseClass.__private_instance self' = BaseClass.__private_instance self) /\
  (forall self value w,
     exists self',
       outcome (BaseClass.set_computed_property self value w) = Ok self' /\
       outcome (BaseClass.__len__ self' w) = Ok (value / 2) /\
       BaseClass._protected_instance self' = BaseClass._protected_instance self /\
       BaseClass.__private_instance self' = BaseClass.__private_instance self) /\
  (forall name file w,
     exists evs,
       trace (final (tokens name file w)) = trace w ++ evs /\
       (Call "BaseClass.__init__" ∉ evs) /\
       (Call "DerivedClass.__init__" ∉ evs)).
Proof.
  split; [reflexivity|].
  split; [intros; eexists; repeat split|].
  split; [intros; eexists; repeat split|].
  intros name file w.
  destruct (tokens_confined name file w) as (_ & (evs & Ht & Hall) & _).
  exists evs. split; [exact Ht|].
  split; eapply not_in_allowed; eauto.
Qed.

(** C8.  Storing [v] under key [k] and reading key [k] back gives [v], for
    every instance of [BaseClass] and of [DerivedClass], which inherits
    both methods. *)
Theorem C8_setitem_getitem_roundtrip (k v : Z) (w : World) :
  (forall obj : BaseClass.t,
     outcome ((obj' ← BaseClass.__setitem__ obj k v ;
               BaseClass.__getitem__ obj' k) w) = Ok v) /\
  (forall obj : DerivedClass.t,
     outcome ((obj' ← DerivedClass.__setitem__ obj k v ;
               DerivedClass.__getitem__ obj' k) w) = Ok v).
Proof.
  split; intros obj; cbv -[Z.add Z.sub]; f_equal; lia.
Qed.

(** C9.  Setting [computed_property] to [v] and reading it back gives
    [2 * (v // 2)]: that is [v] when [v] is even and [v - 1] when [v] is
    odd, so the round trip is exact for the even numbers only. *)
Theorem C9_computed_property_roundtrip (obj : BaseClass.t) (v : Z) (w : World) :
  outcome ((obj' ← BaseClass.set_computed_property obj v ;
            BaseClass.computed_property obj') w) = Ok (2 * (v / 2)) /\
  2 * (v / 2) = (if Z.even v then v else v - 1) /\
  (2 * (v / 2) = v <-> Z.even v = true).
Proof.
  split; [cbv -[Z.mul Z.div]; f_equal; lia|].
  pose proof (Z.div_mod v 2 ltac:(lia)) as Hdm.
  pose proof (Zmod_even v) as Hev.
  destruct (Z.even v); split; try split; intros; try lia; try discriminate.
Qed.

(** ** Script entry point and files *)

(** What [file_operations] leaves on disk when [data.txt] exists: the
    file system of the model does record writes. *)
Lemma file_operations_writes (w : World) (text : string) :
  files w !! "data.txt" = Some text ->
  let r := file_operations w in
  outcome r = Ok tt /\
  files (final r) !! "output.txt" =
    Some ("Hello, World!" +:+ nl +:+ "Line 1" +:+ nl +:+ "Line 2" +:+ nl) /\
  files (final r) !! "data.json" = Some data_json.
Proof.
  intros Hdata. destruct w as [g fs tr]. simpl in Hdata.
  unfold file_operations, open_, read, write. run.
  rewrite Hdata. run.
  repeat (rewrite ?lookup_insert_eq; cbv [default from_option id]).
  split; [reflexivity|]. split; [|reflexivity].
  rewrite !(lookup_insert_ne _ "data.json" "output.txt") by discriminate.
  rewrite lookup_insert_eq. reflexivity.
Qed.

(** C5, refuted as stated.  The block of lines 490-518 is a code path of
    its own for the script: under [__name__ == "__main__"] it prints and
    calls [function_with_args], under another name it does nothing. *)
Lemma C5_main_block_runs_as_script :
  trace (final (sec_main "__main__" empty_world)) =
    [Stdout "Running as main module";
     Call "function_with_args";
     Stdout "Length is 5";
     Stdout "Value: 42, Hex: 2a, Binary: 101010";
     Stdout "Calculation: 2 + 3 = 5"] /\
  trace (final (sec_main "tokens" empty_world)) = [].
Proof. split; reflexivity. Qed.

(** C5, amended.  The file has a script entry point, the block guarded by
    [__name__ == "__main__"]: it does nothing under any other name and,
    under that one, prints four lines around a call of
    [function_with_args].  Nothing is persisted: evaluating the module,
    from any world, leaves every file as it was, opens and writes none,
    and never enters [file_operations]. *)
Theorem C5_entry_point_and_no_persisted_state
    (name file : string) (w : World) :
  sec_main name w =
    (if String.eqb name "__main__" then sec_main "__main__" w else (Ok tt, w)) /\
  (outcome (sec_main "__main__" w) = Ok tt /\
   trace (final (sec_main "__main__" w)) =
     trace w ++ [Stdout "Running as main module";
                 Call "function_with_args";
                 Stdout "Length is 5";
                 Stdout "Value: 42, Hex: 2a, Binary: 101010";
                 Stdout "Calculation: 2 + 3 = 5"]) /\
  files (final (tokens name file w)) = files w /\
  (exists evs,
     trace (final (tokens name file w)) = trace w ++ evs /\
     (Call "file_operations" ∉ evs) /\
     (forall path mode, FileOpen path mode ∉ evs) /\
     (forall path data, FileWrite path data ∉ evs)).
Proof.
  split.
  { destruct (String.eqb_spec name "__main__") as [->|Hne]; [reflexivity|].
    unfold sec_main. apply String.eqb_neq in Hne. rewrite Hne. reflexivity. }
  split; [apply sec_main_runs|].
  destruct (tokens_confined name file w) as (Hf & (evs & Ht & Hall) & _).
  split; [exact Hf|].
  exists evs. split; [exact Ht|].
  repeat split; intros; eapply not_in_allowed; eauto.
Qed.

(** ** Interaction between definitions *)

(** C6, refuted as stated.  [DerivedClass.instance_method] runs
    [BaseClass.instance_method] and builds its result from that of the
    base method; calling [decorated_function] runs the wrappers that
    [decorator_function] and [parametrized_decorator] made. *)
Lemma C6_definitions_interact :
  let d := DerivedClass.new (BaseClass.new 7 "protected" "private") "x" in
  ~ standalone "DerivedClass.instance_method" (DerivedClass.instance_method d) /\
  ~ standalone "decorated_function"
      (f ← decorated_function ; __call__ f 3).
Proof.
  split; intros H; destruct (H empty_world) as (evs & Ht & Hq);
    vm_compute in Ht; subst evs.
  - specialize (Hq "BaseClass.instance_method").
    discriminate Hq. apply list_elem_of_In. cbn. tauto.
  - specialize (Hq "decorator_function").
    discriminate Hq. apply list_elem_of_In. cbn. tauto.
Qed.

(** C6, amended.  The definitions are not all independent.
    [DerivedClass.instance_method] returns the result of
    [BaseClass.instance_method] on the same attributes, followed by
    [" + "] and [extra].  The object bound to [decorated_function] is the
    wrapper of [decorator_function] around the wrapper of
    [parametrized_decorator("test")]: a call prints ["Calling wrapper"],
    then ["Decorator param: test"], and returns [x * 2].  The functions of
    lines 238-260 and the methods of [BaseClass] enter no other
    definition of the file. *)
Theorem C6_dependencies :
  (forall (self : DerivedClass.t) w,
     exists parent_result,
       outcome (BaseClass.instance_method (DerivedClass.base self) w)
         = Ok parent_result /\
       outcome (DerivedClass.instance_method self w)
         = Ok (parent_result +:+ " + " +:+ DerivedClass.extra self) /\
       trace (final (DerivedClass.instance_method self w)) =
         trace w ++ [Call "DerivedClass.instance_method";
                     Call "BaseClass.instance_method"]) /\
  (forall (x : Z) w,
     exists f w',
       decorated_function w = (Ok f, w') /\
       outcome (__call__ f x w') = Ok (x * 2) /\
       trace (final (__call__ f x w')) =
         trace w' ++
           [Call "decorator_function.<locals>.wrapper";
            Stdout "Calling wrapper";
            Call "parametrized_decorator.<locals>.decorator.<locals>.wrapper";
            Stdout "Decorator param: test";
            Call "decorated_function"]) /\
  (forall param, standalone "simple_function" (simple_function param)) /\
  (forall a b c,
     standalone "function_with_defaults" (function_with_defaults a b c)) /\
  (forall args kwargs,
     standalone "function_with_args" (function_with_args args kwargs)) /\
  (forall required keyword_only,
     standalone "function_with_annotations"
       (function_with_annotations required keyword_only)) /\
  (forall self,
     standalone "BaseClass.instance_method" (BaseClass.instance_method self)) /\
  (forall self key,
     standalone "BaseClass.__getitem__" (BaseClass.__getitem__ self key)) /\
  (forall self key value,
     standalone "BaseClass.__setitem__" (BaseClass.__setitem__ self key value)).
Proof.
  split.
  { intros self w. eexists. split; [reflexivity|]. split; [reflexivity|].
    cbv -[app]. rewrite <- !app_assoc. reflexivity. }
  split.
  { intros x w. eexists. eexists. split; [reflexivity|].
    split; [reflexivity|]. cbv -[app]. rewrite <- !app_assoc. reflexivity. }
  repeat split; intros;
    [ unfold simple_function | unfold function_with_defaults
    | unfold function_with_args | unfold function_with_annotations
    | unfold BaseClass.instance_method | unfold BaseClass.__getitem__
    | unfold BaseClass.__setitem__ ];
    alone.
Qed.

(** * Further properties *)

(** ** Evaluation of the module *)

(** Lines 1-108 print nothing and enter no definition. *)
Lemma module_head_silent :
  confined (fun _ => false) (fun _ => true) module_head.
Proof.
  unfold module_head, sec_docstring, sec_imports, sec_constants, sec_numbers,
    sec_strings, sec_collections, sec_comprehensions, sec_booleans,
    sec_operators, sec_membership, aug_assign, import_.
  confine.
Qed.

Lemma module_head_raises (w : World) :
  outcome (module_head w) =
    Raised (mkExc TypeError
              "unsupported operand type(s) for &=: 'float' and 'int'").
Proof. reflexivity. Qed.

(** X1.  Evaluating the module raises [TypeError] at line 99, under every
    module name and path and from every world: it does what lines 1-99 do
    and nothing more.  It prints nothing and touches no file; [assignment]
    is left as the float 1.0, and no name bound after line 99
    ([membership], [BaseClass], [decorated_function], [version]) is
    bound. *)
Theorem X1_module_evaluation_stops_at_line_99 (name file : string) :
  (forall w,
     tokens name file w = module_head w /\
     outcome (tokens name file w) =
       Raised (mkExc TypeError
                 "unsupported operand type(s) for &=: 'float' and 'int'") /\
     trace (final (tokens name file w)) = trace w /\
     files (final (tokens name file w)) = files w) /\
  (forall fs,
     let g := globals (final (run_tokens name file fs)) in
     g !! "assignment" = Some (VFloat 1) /\
     g !! "membership" = None /\
     g !! "BaseClass" = None /\
     g !! "decorated_function" = None /\
     g !! "version" = None).
Proof.
  split.
  - intros w.
    assert (Heq : tokens name file w = module_head w).
    { pose proof (module_head_raises w) as Hr.
      unfold tokens, mbind, M_bind.
      destruct (module_head w) as [[a|e] w']; [discriminate Hr | reflexivity]. }
    rewrite Heq. split; [reflexivity|]. split; [apply module_head_raises|].
    destruct (module_head_silent w) as (Hf & (evs & Ht & Hall) & _).
    split; [|exact Hf].
    destruct evs as [|e evs]; [rewrite Ht; apply app_nil_r|].
    inversion Hall; discriminate.
  - intros fs. repeat split; reflexivity.
Qed.

(** ** [match_example] *)

Lemma Qeq_bool_inject_Z (a b : Z) :
  Qeq_bool (inject_Z a) (inject_Z b) = (a =? b).
Proof. unfold Qeq_bool, inject_Z. cbn. rewrite !Z.mul_1_r. reflexivity. Qed.

Lemma Qle_bool_inject_Z (a b : Z) :
  Qle_bool (inject_Z a) (inject_Z b) = (a <=? b).
Proof. unfold Qle_bool, inject_Z. cbn. rewrite !Z.mul_1_r. reflexivity. Qed.


(** X2.  On an [int] the result follows the first three cases and the
    default, and never raises; [True] equals 1, so [case 1] matches it,
    and [False] falls to the default. *)
Theorem X2_match_example_int_bool (render : Value -> string) (w : World) :
  (forall n : Z,
     outcome (match_example render (VInt n) w) =
       Ok (if n =? 1 then "one"
           else if (n =? 2) || (n =? 3) then "two or three"
           else if 10 <? n then "greater than ten"
           else "default case")) /\
  (forall b : bool,
     outcome (match_example render (VBool b) w) =
       Ok (if b then "one" else "default case")).
Proof.
  split; [|intros [|]; reflexivity].
  intros n.
  unfold match_example, gt_int, eq_int, real_of, VInt, to_Q.
  rewrite !Qeq_bool_inject_Z, Qle_bool_inject_Z, Z.ltb_antisym.
  destruct (n =? 1); [reflexivity|].
  destruct ((n =? 2) || (n =? 3)); [reflexivity|].
  destruct (n <=? 10); reflexivity.
Qed.


(** ** Decorators *)

(** X4.  [decorator_function] is transparent: for every function, calling
    the wrapper prints ["Calling "] and the name of the function and then
    does exactly what the function does, result and exception included.
    The wrapper itself is named ["wrapper"], whatever it wraps. *)
Theorem X4_decorator_function_transparent
    {A B : Type} (func : Function A B) (w : World) :
  exists wrapper,
    decorator_function func w =
      (Ok wrapper,
       mkWorld (globals w) (files w) (trace w ++ [Call "decorator_function"])) /\
    __name__ wrapper = "wrapper" /\
    forall args w',
      __call__ wrapper args w' =
        __call__ func args
          (mkWorld (globals w') (files w')
             (trace w' ++ [Call "decorator_function.<locals>.wrapper";
                           Stdout ("Calling " +:+ __name__ func)])).
Proof.
  eexists. split; [reflexivity|]. split; [reflexivity|].
  intros args w'. cbn. unfold print, enter, emit. run.
  rewrite <- app_assoc. reflexivity.
Qed.

(** X5.  [parametrized_decorator(param)] gives a decorator that is
    transparent in the same way: calling the wrapper prints
    ["Decorator param: "] and [param] and then does exactly what the
    function does. *)
Theorem X5_parametrized_decorator_transparent
    {A B : Type} (param : string) (func : Function A B) (w : World) :
  exists decorator,
    parametrized_decorator param w =
      (Ok decorator,
       mkWorld (globals w) (files w)
         (trace w ++ [Call "parametrized_decorator"])) /\
    forall w1, exists wrapper,
      decorator func w1 =
        (Ok wrapper,
         mkWorld (globals w1) (files w1)
           (trace w1 ++ [Call "parametrized_decorator.<locals>.decorator"])) /\
      __name__ wrapper = "wrapper" /\
      forall args w2,
        __call__ wrapper args w2 =
          __call__ func args
            (mkWorld (globals w2) (files w2)
               (trace w2 ++
                  [Call "parametrized_decorator.<locals>.decorator.<locals>.wrapper";
                   Stdout ("Decorator param: " +:+ param)])).
Proof.
  eexists. split; [reflexivity|].
  intros w1. eexists. split; [reflexivity|]. split; [reflexivity|].
  intros args w2. cbn. unfold print, enter, emit. run.
  rewrite <- app_assoc. reflexivity.
Qed.

(** ** [exception_examples], whatever [risky_operation] is *)

(** X6.  What [exception_examples] does follows from how the call of
    [risky_operation] ends.  If it returns, the [else] branch prints; if it
    raises, the first clause naming a class of the exception prints its
    line.  In both cases the [finally] branch prints and the function
    raises [ValueError("Custom error message")].  Only an exception that
    is not an [Exception], such as [KeyboardInterrupt], is handled by no
    clause: it is raised again after the [finally] branch. *)
Theorem X6_exception_examples_by_cases
    (external : string -> M Value) (w : World) :
  let r :=
    call_global external "risky_operation"
      (mkWorld (globals w) (files w) (trace w ++ [Call "exception_examples"])) in
  let after lines :=
    mkWorld (globals (final r)) (files (final r)) (trace (final r) ++ lines) in
  let custom := mkExc ValueError "Custom error message" in
  exception_examples external w =
    match outcome r with
    | Ok _ =>
        (Raised custom,
         after [Stdout "No exception occurred"; Stdout "Cleanup code"])
    | Raised e =>
        if issubclass (exc_class e) ValueError then
          (Raised custom,
           after [Stdout ("ValueError: " +:+ exc_message e);
                  Stdout "Cleanup code"])
        else if issubclass (exc_class e) TypeError
                || issubclass (exc_class e) AttributeError then
          (Raised custom,
           after [Stdout ("Type or Attribute error: " +:+ exc_message e);
                  Stdout "Cleanup code"])
        else if issubclass (exc_class e) Exception then
          (Raised custom,
           after [Stdout ("General exception: " +:+ exc_message e);
                  Stdout "Cleanup code"])
        else (Raised e, after [Stdout "Cleanup code"])
    end.
Proof.
  cbv zeta. unfold exception_examples, try_except, print, enter, emit. run.
  destruct (call_global external "risky_operation" _) as [[v|[c m]] [g fs tr]].
  - cbv -[app]. rewrite <- !app_assoc. reflexivity.
  - destruct c; cbv -[app]; rewrite <- ?app_assoc; reflexivity.
Qed.

(** X7.  [exception_examples] never returns: every call ends in an
    exception, and the last thing it does before is to print
    ["Cleanup code"]. *)
Theorem X7_exception_examples_never_returns
    (external : string -> M Value) (w : World) :
  (exists e, outcome (exception_examples external w) = Raised e) /\
  (exists evs,
     trace (final (exception_examples external w)) =
       evs ++ [Stdout "Cleanup code"]).
Proof.
  unfold exception_examples, try_except, print, enter, emit. run.
  destruct (call_global external "risky_operation" _) as [[v|[c m]] [g fs tr]].
  - cbv -[app]. split; [eexists; reflexivity|].
    eexists. reflexivity.
  - destruct c; cbv -[app]; (split; [eexists; reflexivity|]);
      eexists; reflexivity.
Qed.

(** ** Context managers *)

(** X8.  [with custom_context_manager() as value] brackets its body: it
    prints ["Entering context"], runs the body on ["context value"], and
    prints ["Exiting context"] whether the body returned or raised; an
    exception of the body is not swallowed. *)
Theorem X8_custom_context_manager_brackets
    {B : Type} (body : string -> M B) (w : World) :
  let r :=
    body "context value"
      (mkWorld (globals w) (files w)
         (trace w ++ [Call "custom_context_manager";
                      Stdout "Entering context"])) in
  (cm ← custom_context_manager ; with_as cm body) w =
    (match outcome r with
     | Ok b => Ok (Some b)
     | Raised e => Raised e
     end,
     mkWorld (globals (final r)) (files (final r))
       (trace (final r) ++ [Stdout "Exiting context"])).
Proof.
  destruct w as [g fs tr]. cbv zeta.
  unfold custom_context_manager, with_as, with_, print, enter, emit. run.
  cbv [__enter__ __exit__]. run. rewrite <- app_assoc.
  destruct (body "context value" _) as [[b|e] [g' fs' tr']]; reflexivity.
Qed.


(** ** [file_operations] *)




(** ** The pattern [\d+\.\d+] *)

Lemma append_cons (c : ascii) (s t : string) :
  String c s +:+ t = String c (s +:+ t).
Proof. reflexivity. Qed.

Lemma append_assoc (s t u : string) : (s +:+ t) +:+ u = s +:+ t +:+ u.
Proof.
  induction s as [|c s IH]; [reflexivity|].
  rewrite !append_cons, IH. reflexivity.
Qed.

Lemma append_nil_r (s : string) : s +:+ "" = s.
Proof.
  induction s as [|c s IH]; [reflexivity|].
  rewrite append_cons, IH. reflexivity.
Qed.

(** [take_digits] splits off the longest run of digits at the front. *)
Lemma take_digits_spec (s d r : string) :
  take_digits s = (d, r) ->
  s = d +:+ r /\ all_digits d = true /\
  match r with
  | String c _ => is_digit c = false
  | EmptyString => True
  end.
Proof.
  revert d r. induction s as [|c s IH]; intros d r H.
  - injection H as <- <-. repeat split.
  - change (take_digits (String c s)) with
      (if is_digit c
       then let '(d, r) := take_digits s in (String c d, r)
       else (EmptyString, String c s)) in H.
    destruct (is_digit c) eqn:Hc.
    + destruct (take_digits s) as [d' r'] eqn:Hs.
      injection H as <- <-.
      destruct (IH d' r' eq_refl) as (-> & Hd & Hr).
      repeat split; [|exact Hr].
      change (is_digit c && all_digits d' = true). rewrite Hc. exact Hd.
    + injection H as <- <-. repeat split. exact Hc.
Qed.

Lemma take_digits_app (d r : string) :
  all_digits d = true ->
  take_digits (d +:+ r) = (d +:+ (take_digits r).1, (take_digits r).2).
Proof.
  induction d as [|c d IH]; intros Hd.
  - change ("" +:+ r) with r. destruct (take_digits r); reflexivity.
  - change (is_digit c && all_digits d = true) in Hd.
    apply andb_true_iff in Hd as [Hc Hd].
    rewrite append_cons.
    change (take_digits (String c (d +:+ r))) with
      (if is_digit c
       then let '(d, r) := take_digits (d +:+ r) in (String c d, r)
       else (EmptyString, String c (d +:+ r))).
    rewrite Hc, (IH Hd). reflexivity.
Qed.

Lemma match_decimal_sound (s m : string) :
  match_decimal s = Some m ->
  decimal_text m /\ exists post, s = m +:+ post.
Proof.
  unfold match_decimal.
  destruct (take_digits s) as [whole r] eqn:Hs.
  destruct (take_digits_spec _ _ _ Hs) as (-> & Hw & _).
  destruct whole as [|c whole]; [discriminate|].
  destruct r as [|dot r]; [discriminate|].
  destruct (Ascii.eqb_spec dot ".") as [->|Hne].
  2:{ destruct dot as [[] [] [] [] [] [] [] []]; try discriminate.
      contradiction Hne; reflexivity. }
  destruct (take_digits r) as [frac post] eqn:Hr.
  destruct (take_digits_spec _ _ _ Hr) as (-> & Hf & _).
  destruct frac as [|c' frac]; [discriminate|].
  intros [= <-]. split.
  - exists (String c whole), (String c' frac).
    repeat split; try discriminate; assumption.
  - exists post. rewrite !append_assoc. reflexivity.
Qed.

Lemma search_decimal_eq (s : string) :
  search_decimal s =
    match match_decimal s with
    | Some m => Some m
    | None =>
        match s with
        | String _ s' => search_decimal s'
        | EmptyString => None
        end
    end.
Proof. destruct s; reflexivity. Qed.

Lemma match_decimal_complete (m post : string) :
  decimal_text m -> is_Some (match_decimal (m +:+ post)).
Proof.
  intros (whole & frac & -> & Hw & Hf & Hdw & Hdf).
  unfold match_decimal.
  rewrite !append_assoc, (take_digits_app whole _ Hdw).
  change (take_digits ("." +:+ frac +:+ post)) with
    (EmptyString, "." +:+ frac +:+ post).
  cbv [fst snd]. rewrite append_nil_r.
  destruct whole as [|c whole]; [contradiction Hw; reflexivity|].
  change ("." +:+ frac +:+ post) with (String "."%char (frac +:+ post)).
  cbv beta iota.
  rewrite (take_digits_app frac _ Hdf).
  destruct frac as [|c' frac]; [contradiction Hf; reflexivity|].
  rewrite append_cons. eexists. reflexivity.
Qed.

Lemma search_decimal_complete (pre m post : string) :
  decimal_text m -> is_Some (search_decimal (pre +:+ m +:+ post)).
Proof.
  intros Hm. induction pre as [|c pre IH]; rewrite search_decimal_eq.
  - change ("" +:+ m +:+ post) with (m +:+ post).
    destruct (match_decimal_complete m post Hm) as [x ->]. eexists; reflexivity.
  - destruct (match_decimal _); [eexists; reflexivity|].
    rewrite append_cons. exact IH.
Qed.

Lemma search_decimal_sound (s m : string) :
  search_decimal s = Some m ->
  decimal_text m /\ exists pre post, s = pre +:+ m +:+ post.
Proof.
  induction s as [|c s IH]; rewrite search_decimal_eq.
  - discriminate.
  - destruct (match_decimal (String c s)) as [m'|] eqn:Hm.
    + intros [= <-]. destruct (match_decimal_sound _ _ Hm) as [Ht [post ->]].
      split; [exact Ht|]. exists "", post. reflexivity.
    + intros H. destruct (IH H) as [Ht (pre & post & ->)].
      split; [exact Ht|]. exists (String c pre), post. reflexivity.
Qed.

(** X12.  In ASCII text, what [pattern.search] returns is a piece of the
    text searched and has the shape the pattern asks for: one or more
    digits, a dot, one or more digits. *)
Theorem X12_search_finds_a_decimal_in_the_text (s m : string) :
  ascii_text s = true ->
  search_decimal s = Some m ->
  decimal_text m /\ exists pre post, s = pre +:+ m +:+ post.
Proof. intros _. apply search_decimal_sound. Qed.

(** The search of line 409. *)
Lemma X12_witness :
  ascii_text "Version 1.23.4" = true /\
  search_decimal "Version 1.23.4" = Some "1.23" /\
  (decimal_text "1.23" /\
   exists pre post, "Version 1.23.4" = pre +:+ "1.23" +:+ post).
Proof.
  split; [reflexivity|]. split; [reflexivity|].
  apply (X12_search_finds_a_decimal_in_the_text "Version 1.23.4" "1.23");
    reflexivity.
Defined.

(** X13.  In ASCII text, [pattern.search] finds a match exactly when the
    text contains one: it returns [None] only for a text with no
    digits-dot-digits piece anywhere in it. *)
Theorem X13_search_succeeds_iff_text_contains_a_decimal (s : string) :
  ascii_text s = true ->
  (is_Some (search_decimal s) <->
   exists pre m post, s = pre +:+ m +:+ post /\ decimal_text m).
Proof.
  intros _. split.
  - intros [m Hm]. destruct (search_decimal_sound s m Hm) as [Ht (pre & post & ->)].
    exists pre, m, post. split; [reflexivity | exact Ht].
  - intros (pre & m & post & -> & Ht). apply search_decimal_complete, Ht.
Qed.

(** The text of line 409 contains a decimal, and the search finds one. *)
Lemma X13_witness :
  ascii_text "Version 1.23.4" = true /\
  (is_Some (search_decimal "Version 1.23.4") <->
   exists pre m post,
     "Version 1.23.4" = pre +:+ m +:+ post /\ decimal_text m).
Proof.
  split; [reflexivity|].
  apply (X13_search_succeeds_iff_text_contains_a_decimal "Version 1.23.4").
  reflexivity.
Defined.

(** ** [BaseClass], further *)

(** X14.  A round trip through [computed_property] settles at once:
    after one assignment, assigning back the value read changes nothing,
    whatever was assigned first. *)
Theorem X14_computed_property_roundtrip_is_idempotent
    (obj : BaseClass.t) (p : Z) (w : World) :
  exists obj',
    outcome ((obj1 ← BaseClass.set_computed_property obj p ;
              r ← BaseClass.computed_property obj1 ;
              obj2 ← BaseClass.set_computed_property obj1 r ;
              mret (obj1, obj2)) w) = Ok (obj', obj').
Proof.
  eexists. cbv -[Z.mul Z.div]. rewrite Z.div_mul by discriminate. reflexivity.
Qed.

(** X15.  Item assignment is not per key: an instance stores one number,
    so after [obj[k] = v] every key [j] reads [v + (j - k)], and the
    values read under two keys always differ by the difference of the
    keys. *)
Theorem X15_setitem_moves_every_key
    (obj : BaseClass.t) (k v j : Z) (w : World) :
  outcome ((obj' ← BaseClass.__setitem__ obj k v ;
            BaseClass.__getitem__ obj' j) w) = Ok (v + (j - k)) /\
  forall j',
    exists a b,
      outcome (BaseClass.__getitem__ obj j w) = Ok a /\
      outcome (BaseClass.__getitem__ obj j' w) = Ok b /\
      a - b = j - j'.
Proof.
  split.
  - cbv -[Z.add Z.sub]. f_equal. lia.
  - intros j'. eexists. eexists. split; [reflexivity|]. split; [reflexivity|].
    cbv -[Z.add Z.sub]. lia.
Qed.

Lemma str_int_inj (a b : Z) : str_int a = str_int b -> a = b.
Proof.
  unfold str_int. intros H.
  assert (Hn : forall z, Z.to_int z <> Decimal.Pos Decimal.Nil /\
                         Z.to_int z <> Decimal.Neg Decimal.Nil).
  { intros [|p|p]; split; try discriminate; cbn; intros [= Hp];
      exact (DecimalPos.Unsigned.to_uint_nonnil p Hp). }
  apply (f_equal DecimalString.NilZero.int_of_string) in H.
  rewrite !DecimalString.NilZero.isi in H by apply Hn.
  injection H as H. apply (f_equal Z.of_int) in H.
  rewrite !DecimalZ.of_to in H. exact H.
Qed.

Lemma length_append (s t : string) :
  String.length (s +:+ t) = (String.length s + String.length t)%nat.
Proof.
  induction s as [|c s IH]; [reflexivity|].
  rewrite append_cons. cbn [String.length]. rewrite IH. reflexivity.
Qed.

Lemma append_inj_r (s t u : string) : s +:+ u = t +:+ u -> s = t.
Proof.
  intros H.
  assert (Hlen : String.length s = String.length t).
  { apply (f_equal String.length) in H.
    rewrite !length_append in H. lia. }
  revert t H Hlen. induction s as [|c s IH]; intros [|c' t] H Hlen;
    try discriminate; [reflexivity|].
  rewrite !append_cons in H. injection H as -> H.
  f_equal. apply IH; [exact H|]. cbn in Hlen. lia.
Qed.

(** X16.  [__str__] and [__repr__] tell instances apart by the number
    they hold: two instances print alike exactly when they hold the same
    [instance_variable]. *)
Theorem X16_str_and_repr_determine_instance_variable
    (a b : BaseClass.t) (w : World) :
  (outcome (BaseClass.__str__ a w) = outcome (BaseClass.__str__ b w) <->
   BaseClass.instance_variable a = BaseClass.instance_variable b) /\
  (outcome (BaseClass.__repr__ a w) = outcome (BaseClass.__repr__ b w) <->
   BaseClass.instance_variable a = BaseClass.instance_variable b).
Proof.
  split; (split; [|intros H; unfold BaseClass.__str__, BaseClass.__repr__;
                     rewrite H; reflexivity]).
  - intros H. cbv [BaseClass.__str__ BaseClass.__repr__] in H. cbv [mbind mret M_bind M_ret emit enter outcome fst] in H.
    injection H as H.
    apply str_int_inj, (append_inj_r _ _ ")"). exact H.
  - intros H. cbv [BaseClass.__str__ BaseClass.__repr__] in H. cbv [mbind mret M_bind M_ret emit enter outcome fst] in H.
    injection H as H.
    apply str_int_inj, (append_inj_r _ _ ")"). exact H.
Qed.

(** ** [async_context_manager], whatever [some_async_context] is *)

